(** * Shallow embedding of [app.py] (breast-cancer prediction web app)

    The module-level state of [app.py] (the [predictions] table, the loaded
    [model] and [scaler]) is threaded explicitly; the Flask handlers
    [index] (POST branch) and [records] become functions from the request,
    the environment and the table to the new table and the response.
    Python's [float()] is a parameter [py_float] of the development (the
    numbers it produces are of an abstract type [num]); a concrete decimal
    instance is given at the end for the worked examples. *)

From Stdlib Require Import String Ascii List ZArith Lia Bool.
From Stdlib Require Import Permutation Sorted.
From Stdlib Require Import Numbers.DecimalString.
Import ListNotations.
Open Scope string_scope.
Set Warnings "-register-all".

(* ------------------------------------------------------------------ *)
(** ** Python string helpers: [str.strip], [str.split(',')], [str.replace] *)

(** Python [str] values are represented by their UTF-8 encoding, one
    [ascii] per byte.  The separators the code splits on or replaces
    (',' and ' ') are single bytes that never occur inside the encoding
    of another character, so [split] and [replace] work byte-wise.

    [str.strip()] removes the characters for which [str.isspace()] holds:
    U+0009-U+000D, U+001C-U+001F, U+0020, U+0085, U+00A0, U+1680,
    U+2000-U+200A, U+2028, U+2029, U+202F, U+205F and U+3000.  Their
    encodings are one byte (the ASCII ones), two bytes (C2 85, C2 A0) or
    three bytes (E1 9A 80, E2 80 80-8A, E2 80 A8, E2 80 A9, E2 80 AF,
    E2 81 9F, E3 80 80). *)
Definition is_space1 (c : ascii) : bool :=
  let n := nat_of_ascii c in
  (((9 <=? n) && (n <=? 13)) || ((28 <=? n) && (n <=? 32)))%nat.

Definition is_space2 (c0 c1 : ascii) : bool :=
  let n0 := nat_of_ascii c0 in
  let n1 := nat_of_ascii c1 in
  ((n0 =? 194) && ((n1 =? 133) || (n1 =? 160)))%nat.

Definition is_space3 (c0 c1 c2 : ascii) : bool :=
  let n0 := nat_of_ascii c0 in
  let n1 := nat_of_ascii c1 in
  let n2 := nat_of_ascii c2 in
  (((n0 =? 225) && (n1 =? 154) && (n2 =? 128))
   || ((n0 =? 226) && (n1 =? 128)
       && (((128 <=? n2) && (n2 <=? 138)) || (n2 =? 168) || (n2 =? 169) || (n2 =? 175)))
   || ((n0 =? 226) && (n1 =? 129) && (n2 =? 159))
   || ((n0 =? 227) && (n1 =? 128) && (n2 =? 128)))%nat.

(** [s.lstrip()]: drop whitespace characters at the front. *)
Fixpoint lstrip (s : string) : string :=
  match s with
  | EmptyString => EmptyString
  | String c0 r0 =>
      if is_space1 c0 then lstrip r0 else
      match r0 with
      | EmptyString => s
      | String c1 r1 =>
          if is_space2 c0 c1 then lstrip r1 else
          match r1 with
          | EmptyString => s
          | String c2 r2 => if is_space3 c0 c1 c2 then lstrip r2 else s
          end
      end
  end.

Fixpoint rev_str (s : string) (acc : string) : string :=
  match s with
  | EmptyString => acc
  | String c r => rev_str r (String c acc)
  end.

(** The same on the reversed byte string: the last byte of a character
    comes first. *)
Fixpoint lstrip_rev (s : string) : string :=
  match s with
  | EmptyString => EmptyString
  | String c0 r0 =>
      if is_space1 c0 then lstrip_rev r0 else
      match r0 with
      | EmptyString => s
      | String c1 r1 =>
          if is_space2 c1 c0 then lstrip_rev r1 else
          match r1 with
          | EmptyString => s
          | String c2 r2 => if is_space3 c2 c1 c0 then lstrip_rev r2 else s
          end
      end
  end.

(** [s.rstrip()] *)
Definition rstrip (s : string) : string :=
  rev_str (lstrip_rev (rev_str s EmptyString)) EmptyString.

(** [s.strip()] *)
Definition strip (s : string) : string := rstrip (lstrip s).

(** [s.split(sep)] for a one-character separator: always at least one
    fragment, empty fragments kept. *)
Fixpoint split_on (sep : ascii) (s : string) : list string :=
  match s with
  | EmptyString => [EmptyString]
  | String c r =>
      let parts := split_on sep r in
      if Ascii.eqb c sep then EmptyString :: parts
      else match parts with
           | p :: ps => String c p :: ps
           | [] => [String c EmptyString]
           end
  end.

(** [s.replace(a, b)] for single characters. *)
Fixpoint replace_char (a b : ascii) (s : string) : string :=
  match s with
  | EmptyString => EmptyString
  | String c r => String (if Ascii.eqb c a then b else c) (replace_char a b r)
  end.

(** [str(n)] for a non-negative integer. *)
Definition nat_str (n : nat) : string :=
  NilEmpty.string_of_uint (Nat.to_uint n).

(* ------------------------------------------------------------------ *)
(** ** [feature_names] (lines 17-26) *)

Definition feature_names : list string :=
  [ "mean radius"; "mean texture"; "mean perimeter"; "mean area"; "mean smoothness";
    "mean compactness"; "mean concavity"; "mean concave points"; "mean symmetry";
    "mean fractal dimension"; "radius error"; "texture error"; "perimeter error";
    "area error"; "smoothness error"; "compactness error"; "concavity error";
    "concave points error"; "symmetry error"; "fractal dimension error";
    "worst radius"; "worst texture"; "worst perimeter"; "worst area";
    "worst smoothness"; "worst compactness"; "worst concavity";
    "worst concave points"; "worst symmetry"; "worst fractal dimension" ].

(** [fn.replace(' ', '_')] *)
Definition sanitize (fn : string) : string := replace_char " " "_" fn.

(** The column list of [init_db]'s [CREATE TABLE predictions]. *)
Definition table_columns : list string :=
  ["id"; "username"; "timestamp"; "prediction"] ++ map sanitize feature_names.

(** Labels as the flash messages render them. *)
Definition label_text (pred : Z) : string :=
  if Z.eqb pred 0 then "Benign" else "Malignant".

(** First binding of a key in an association list (a werkzeug
    [MultiDict] lookup, a Python [dict] lookup, a column of a row). *)
Fixpoint assoc {B : Type} (k : string) (l : list (string * B)) : option B :=
  match l with
  | [] => None
  | (k', v) :: r => if String.eqb k k' then Some v else assoc k r
  end.

(* ------------------------------------------------------------------ *)
(** ** Python exceptions raised inside the [try] of [index] *)

(** [KeyError] stands for werkzeug's [BadRequestKeyError] (a [KeyError]
    that is not a [ValueError]); [OtherError] for any other [Exception]. *)
Inductive py_exn := ValueError | KeyError | OtherError.

Inductive outcome (A : Type) : Type :=
| Return (a : A)
| Raise (e : py_exn).
Arguments Return {A} a.
Arguments Raise {A} e.

Definition obind {A B : Type} (m : outcome A) (k : A -> outcome B) : outcome B :=
  match m with
  | Return a => k a
  | Raise e => Raise e
  end.

Notation "x <- m ;; k" := (obind m (fun x => k))
  (at level 61, m at next level, right associativity).

(** A submitted form: field name and value. *)
Definition form := list (string * string).

(** [request.form[k]] *)
Definition form_get (f : form) (k : string) : outcome string :=
  match assoc k f with
  | Some v => Return v
  | None => Raise KeyError
  end.

(** Responses: the flashed (message, category) pairs and the page. *)
Section App.

(** The values produced by Python's [float()] and [float()] itself:
    [py_float s = None] when [float(s)] raises [ValueError]; [is_nan x]
    tells whether [x] is a NaN (as [float('nan')] is). *)
Context {num : Type} (py_float : string -> option num) (is_nan : num -> bool).

(** SQLite values of the [predictions] table. *)
Inductive sqlval :=
| SNull
| SInt (z : Z)
| SReal (x : num)
| SText (s : string)
| STime (t : Z).   (* CURRENT_TIMESTAMP, in seconds *)

(** A row: (column, value) in the table's column order. *)
Definition row := list (string * sqlval).

Record table := mkTable { tbl_rows : list row; tbl_next_id : Z }.

(** The table as [init_db] creates it on a fresh database file. *)
Definition empty_table : table := mkTable [] 1%Z.

(** What the request finds in the world: the database clock and whether
    the database access of this request fails (locked, unwritable, ...). *)
Record env := mkEnv { env_now : Z; env_db_fails : bool }.

Inductive page :=
| Redirect (endpoint : string)
| RenderIndex
| RenderRecords (rows : list row).

Record response := mkResp { resp_flashes : list (string * string); resp_page : page }.

(** [flash(msg, cat); return redirect(url_for(ep))] *)
Definition flash_redirect (msg cat ep : string) : response :=
  mkResp [(msg, cat)] (Redirect ep).

(* ------------------------------------------------------------------ *)
(** *** Parsing the [features] field (line 108)
    [[float(v.strip()) for v in raw_input.split(',') if v.strip() != '']] *)

Fixpoint parse_list (frags : list string) : outcome (list num) :=
  match frags with
  | [] => Return []
  | v :: rest =>
      if String.eqb (strip v) "" then parse_list rest
      else match py_float (strip v) with
           | None => Raise ValueError
           | Some x => xs <- parse_list rest ;; Return (x :: xs)
           end
  end.

Definition parse_features (raw : string) : outcome (list num) :=
  parse_list (split_on "," raw).

(* ------------------------------------------------------------------ *)
(** *** Model gateway: scaler and classifier objects (duck-typed).
    [None] means the call raises. *)

Record Scaler := mkScaler { transform : list (list num) -> option (list (list num)) }.
Record Model := mkModel { predict : list (list num) -> option (list Z) }.

(** Lines 116-117: [X_scaled = scaler.transform([vals]);
    pred = int(model.predict(X_scaled)[0])]. *)
Definition classify (sc : Scaler) (m : Model) (vals : list num) : option Z :=
  match transform sc [vals] with
  | None => None
  | Some X =>
      match predict m X with
      | Some (p :: _) => Some p
      | _ => None
      end
  end.

(* ------------------------------------------------------------------ *)
(** *** The INSERT statement (SQLite semantics of a parameterised
    [INSERT INTO predictions (cols) VALUES (?, ..., ?)]) *)

Definition is_null (v : sqlval) : bool :=
  match v with SNull => true | _ => false end.

(** Value given to a column of the new row: explicit value if listed,
    else the column default ([id]: next AUTOINCREMENT, [timestamp]:
    CURRENT_TIMESTAMP, others NULL). *)
Definition cell_value (cols : list string) (params : list sqlval) (next : Z) (now : Z)
    (c : string) : sqlval :=
  match assoc c (combine cols params) with
  | Some v => v
  | None =>
      if String.eqb c "id" then SInt next
      else if String.eqb c "timestamp" then STime now
      else SNull
  end.

Definition sql_insert (cols : list string) (nph : nat) (params : list sqlval) (now : Z)
    (t : table) : option table :=
  if negb (Nat.eqb (length cols) nph) then None          (* N values for M columns *)
  else if negb (Nat.eqb (length params) nph) then None  (* wrong number of bindings *)
  else if existsb (fun c => negb (existsb (String.eqb c) table_columns)) cols
  then None                                             (* no such column *)
  else
    let r := map (fun c => (c, cell_value cols params (tbl_next_id t) now c)) table_columns in
    if existsb (fun cv => is_null (snd cv)) r then None  (* NOT NULL constraint *)
    else Some (mkTable (tbl_rows t ++ [r]) (tbl_next_id t + 1)%Z).

(** sqlite3 binds a Python [float] with [sqlite3_bind_double], and SQLite
    stores a NaN double as NULL. *)
Definition bind_real (x : num) : sqlval := if is_nan x then SNull else SReal x.

(** Lines 125-130. *)
Definition insert_prediction (e : env) (username : string) (pred : Z) (vals : list num)
    (t : table) : option table :=
  if env_db_fails e then None
  else
    let cols := "username" :: "prediction" :: map sanitize feature_names in
    let placeholders := (2 + length vals)%nat in
    sql_insert cols placeholders (SText username :: SInt pred :: map bind_real vals)
      (env_now e) t.

(* ------------------------------------------------------------------ *)
(** *** [index], POST branch (lines 104-148) *)

(** The body of the outer [try] (lines 106-139). *)
Definition index_post_body (sc : Scaler) (m : Model) (e : env) (f : form) (t : table)
    : outcome (table * response) :=
  u <- form_get f "username" ;;
  let username := strip u in
  raw_input <- form_get f "features" ;;
  vals <- parse_features raw_input ;;
  if negb (Nat.eqb (length vals) (length feature_names)) then
    Return (t, flash_redirect
                 ("Expected " ++ nat_str (length feature_names) ++ " values but got "
                  ++ nat_str (length vals) ++ ".") "error" "index")
  else
    match classify sc m vals with
    | None =>
        Return (t, flash_redirect "Error making prediction. Please try again." "error" "index")
    | Some pred =>
        match insert_prediction e username pred vals t with
        | None =>
            Return (t, flash_redirect
                         ("Error saving to database. Your prediction was: " ++ label_text pred)
                         "warning" "index")
        | Some t' =>
            Return (t', flash_redirect
                          ("Prediction for " ++ username ++ ": " ++ label_text pred)
                          "success" "records")
        end
    end.

(** The outer [except ValueError] / [except Exception] (lines 141-148). *)
Definition index_post (sc : Scaler) (m : Model) (e : env) (f : form) (t : table)
    : table * response :=
  match index_post_body sc m e f t with
  | Return r => r
  | Raise ValueError =>
      (t, flash_redirect "All feature fields must be valid numbers." "error" "index")
  | Raise _ =>
      (t, flash_redirect "An unexpected error occurred. Please try again." "error" "index")
  end.

(* ------------------------------------------------------------------ *)
(** *** [records] (lines 152-161) *)

Definition row_timestamp (r : row) : Z :=
  match assoc "timestamp" r with
  | Some (STime ts) => ts
  | _ => 0%Z
  end.

(** [ORDER BY timestamp DESC]: SQLite returns the rows sorted by
    non-increasing timestamp; the order of equal timestamps is not
    specified, hence a relation. *)
Definition ordered_by_timestamp_desc (rows out : list row) : Prop :=
  Permutation rows out /\ Sorted (fun a b => (row_timestamp b <= row_timestamp a)%Z) out.

Inductive records_resp (e : env) (t : table) : response -> Prop :=
| records_read_ok : forall out,
    env_db_fails e = false ->
    ordered_by_timestamp_desc (tbl_rows t) out ->
    records_resp e t (mkResp [] (RenderRecords out))
| records_read_fails :
    env_db_fails e = true ->
    records_resp e t (flash_redirect "Error loading prediction records." "error" "index").

(* ------------------------------------------------------------------ *)
(** *** Loading the model at startup (lines 63-100) *)

(** The Python objects a pickle can hold, as far as the code uses them:
    [o[k]] calls the object's [__getitem__] ([None]: the object is not
    subscriptable; a [dict] raises [KeyError] on a missing key, a
    [defaultdict] returns its default, a [Pipeline] or a [Series] has its
    own lookup), and [predict] / [transform] are its methods when it has
    them ([None]: the call raises [AttributeError]). *)
Inductive pyobj :=
| PyObj (getitem_m : option (string -> outcome pyobj))
        (predict_m : option (list (list num) -> option (list Z)))
        (transform_m : option (list (list num) -> option (list (list num)))).

(** The artifact file: absent, or present with the result of
    [pickle.load] ([None]: it raises). *)
Inductive artifact := NoFile | ArtifactFile (unpickled : option pyobj).

(** [DummyModel] and [DummyScaler]. *)
Definition dummy_model : Model := mkModel (fun _ => Some [0%Z]).
Definition dummy_scaler : Scaler := mkScaler (fun X => Some X).

(** [bundle[k]] *)
Definition getitem (o : pyobj) (k : string) : outcome pyobj :=
  match o with
  | PyObj (Some g) _ _ => g k
  | PyObj None _ _ => Raise OtherError   (* TypeError: not subscriptable *)
  end.

(** Method lookup at call time: an object without [predict] /
    [transform] raises [AttributeError] when called. *)
Definition as_model (o : pyobj) : Model :=
  match o with
  | PyObj _ (Some p) _ => mkModel p
  | PyObj _ None _ => mkModel (fun _ => None)
  end.
Definition as_scaler (o : pyobj) : Scaler :=
  match o with
  | PyObj _ _ (Some tr) => mkScaler tr
  | PyObj _ _ None => mkScaler (fun _ => None)
  end.

Definition load_body (a : artifact) : outcome (Model * Scaler) :=
  match a with
  | NoFile => Return (dummy_model, dummy_scaler)
  | ArtifactFile None => Raise OtherError
  | ArtifactFile (Some bundle) =>
      mo <- getitem bundle "model" ;;
      so <- getitem bundle "scaler" ;;
      Return (as_model mo, as_scaler so)
  end.

(** The module-level [try] / [except Exception]. *)
Definition load_model (a : artifact) : Model * Scaler :=
  match load_body a with
  | Return p => p
  | Raise _ => (dummy_model, dummy_scaler)
  end.

(* ------------------------------------------------------------------ *)
(** *** A sequence of POST requests against one database *)

Definition is_success (r : response) : bool :=
  existsb (fun mc => String.eqb (snd mc) "success") (resp_flashes r).

Fixpoint run_posts (sc : Scaler) (m : Model) (t : table) (reqs : list (env * form))
    : table * list response :=
  match reqs with
  | [] => (t, [])
  | (e, f) :: rest =>
      let (t1, r) := index_post sc m e f t in
      let (t2, rs) := run_posts sc m t1 rest in
      (t2, r :: rs)
  end.

(** Feature values of a stored row read back by column name, in
    [feature_names] order. *)
Definition read_features (r : row) : list sqlval :=
  map (fun fn => match assoc (sanitize fn) r with Some v => v | None => SNull end)
      feature_names.

End App.


(* ------------------------------------------------------------------ *)
(** ** A concrete [float()] for worked examples

    Python's [float()] on decimal literals: optional sign, digits with an
    optional fraction, optional exponent, or [inf]/[infinity]/[nan] in any
    case; surrounding whitespace is ignored.  The value is kept exact as
    sign, mantissa and decimal exponent (rounding to a double is not
    observed by the handler).  Digit-group underscores and non-ASCII
    decimal digits, which Python also accepts, are not accepted here. *)
Module PyFloat.

Inductive pyval := Fin (neg : bool) (mant : N) (exp : Z) | Inf (neg : bool) | NaN.

Definition digit_of (c : ascii) : option N :=
  let n := nat_of_ascii c in
  if ((48 <=? n) && (n <=? 57))%nat then Some (N.of_nat (n - 48)) else None.

(** Longest digit prefix: accumulated value, number of digits, rest. *)
Fixpoint digits (s : string) (acc : N) (cnt : nat) : N * nat * string :=
  match s with
  | String c r =>
      match digit_of c with
      | Some d => digits r (acc * 10 + d)%N (S cnt)
      | None => (acc, cnt, s)
      end
  | EmptyString => (acc, cnt, s)
  end.

Fixpoint lower (s : string) : string :=
  match s with
  | EmptyString => EmptyString
  | String c r =>
      let n := nat_of_ascii c in
      String (if ((65 <=? n) && (n <=? 90))%nat then ascii_of_nat (n + 32) else c) (lower r)
  end.

Definition parse_exponent (s : string) : option Z :=
  let '(neg, s1) :=
    match s with
    | String "-" r => (true, r)
    | String "+" r => (false, r)
    | _ => (false, s)
    end in
  let '(e, ne, rest) := digits s1 0 0 in
  if Nat.eqb ne 0 then None
  else if negb (String.eqb rest "") then None
  else Some (if neg then (- Z.of_N e)%Z else Z.of_N e).

Definition parse_unsigned (neg : bool) (s : string) : option pyval :=
  let l := lower s in
  if String.eqb l "inf" || String.eqb l "infinity" then Some (Inf neg)
  else if String.eqb l "nan" then Some NaN
  else
    let '(ip, ni, s1) := digits s 0 0 in
    let '(mant, nf, s2) :=
      match s1 with
      | String "." r => digits r ip 0
      | _ => (ip, 0%nat, s1)
      end in
    if Nat.eqb (ni + nf) 0 then None
    else
      match s2 with
      | EmptyString => Some (Fin neg mant (- Z.of_nat nf))
      | String c r =>
          if Ascii.eqb c "e" || Ascii.eqb c "E" then
            match parse_exponent r with
            | Some e => Some (Fin neg mant (e - Z.of_nat nf))
            | None => None
            end
          else None
      end.

Definition is_nan (v : pyval) : bool :=
  match v with NaN => true | _ => false end.

Definition py_float (s0 : string) : option pyval :=
  let s := strip s0 in
  match s with
  | String "-" r => parse_unsigned true r
  | String "+" r => parse_unsigned false r
  | _ => parse_unsigned false s
  end.

End PyFloat.

(** The 30 values [1,2,...,30] as the form's [features] field. *)
Definition sample_features : string :=
  "1,2,3,4,5,6,7,8,9,10,11,12,13,14,15,16,17,18,19,20,21,22,23,24,25,26,27,28,29,30".

Definition sample_form (name : string) : form :=
  [("username", name); ("features", sample_features)].

(** U+00A0 (no-break space) and U+3000 (ideographic space), UTF-8 encoded. *)
Definition nbsp : string := String (ascii_of_nat 194) (String (ascii_of_nat 160) EmptyString).
Definition ideo_space : string :=
  String (ascii_of_nat 227) (String (ascii_of_nat 128) (String (ascii_of_nat 128) EmptyString)).

(** [sample_features] with the first value replaced by [nan]. *)
Definition nan_features : string :=
  "nan,2,3,4,5,6,7,8,9,10,11,12,13,14,15,16,17,18,19,20,21,22,23,24,25,26,27,28,29,30".

Definition env_ok : env := mkEnv 1000 false.
Definition env_db_down : env := mkEnv 1000 true.

(* ------------------------------------------------------------------ *)
(** ** Auxiliary definitions for the proofs *)

(** The column list and the parameter list of the INSERT of lines 125-129. *)
Definition pred_cols : list string := "username" :: "prediction" :: map sanitize feature_names.

Definition ins_params {num : Type} (u : string) (p : Z) (ws : list (@sqlval num))
    : list sqlval :=
  SText u :: SInt p :: ws.

(** The row the INSERT builds from the bound feature values [ws]. *)
Definition ins_row {num : Type} (u : string) (p : Z) (ws : list (@sqlval num)) (next now : Z)
    : row :=
  map (fun c => (c, cell_value pred_cols (ins_params u p ws) next now c)) table_columns.

(** The row written for the values [vals] when none of them is a NaN. *)
Definition pred_row {num : Type} (u : string) (p : Z) (vals : list num) (next now : Z) : row :=
  ins_row u p (map SReal vals) next now.

Fixpoint nodupb (l : list string) : bool :=
  match l with
  | [] => true
  | x :: r => negb (existsb (String.eqb x) r) && nodupb r
  end.

Definition count_success {num : Type} (rs : list (@response num)) : nat :=
  length (filter is_success rs).

(** The order of [ORDER BY timestamp DESC]. *)
Definition ts_desc {num : Type} (a b : @row num) : Prop := (row_timestamp b <= row_timestamp a)%Z.

Definition unwrap_null {num : Type} (o : option (@sqlval num)) : sqlval :=
  match o with Some v => v | None => SNull end.

(** One ordering SQLite may produce for [ORDER BY timestamp DESC]. *)
Fixpoint insert_desc {num : Type} (r : @row num) (l : list row) : list row :=
  match l with
  | [] => [r]
  | x :: l' => if Z.leb (row_timestamp x) (row_timestamp r) then r :: l
               else x :: insert_desc r l'
  end.

Fixpoint sort_desc {num : Type} (l : list (@row num)) : list row :=
  match l with
  | [] => []
  | x :: l' => insert_desc x (sort_desc l')
  end.

(** The parsed values of [sample_features]. *)
Definition sample_vals : list PyFloat.pyval :=
  map (fun n => PyFloat.Fin false (N.of_nat n) 0) (seq 1 30).

(** Three POST requests: two well-formed, one without [features]. *)
Definition two_posts : list (env * form) :=
  [(env_ok, sample_form "ann"); (mkEnv 1001 false, sample_form "bob");
   (env_ok, [("username", "eve")])].

(** Two POST requests on a clock that does not go backwards. *)
Definition clocked_posts : list (env * form) :=
  [(mkEnv 1000 false, sample_form "ann"); (mkEnv 1001 false, sample_form "bob")].

(** A scaler whose [transform] raises. *)
Definition raising_scaler {num : Type} : @Scaler num := mkScaler (fun _ => None).

(** [row["id"]] *)
Definition row_id {num : Type} (r : @row num) : option sqlval := assoc "id" r.

(** The ids AUTOINCREMENT hands out on a fresh table: 1, 2, ..., n. *)
Definition sequential_ids {num : Type} (t : @table num) : Prop :=
  map row_id (tbl_rows t) = map (fun i => Some (SInt (Z.of_nat i))) (seq 1 (length (tbl_rows t)))
  /\ tbl_next_id t = (Z.of_nat (length (tbl_rows t)) + 1)%Z.

(* ------------------------------------------------------------------ *)
(** ** Worked examples *)

Example py_float_ex1 : PyFloat.py_float " 17.99 " = Some (PyFloat.Fin false 1799 (-2)).
Proof. reflexivity. Qed.
Example py_float_ex2 : PyFloat.py_float "-1e3" = Some (PyFloat.Fin true 1 3).
Proof. reflexivity. Qed.
Example py_float_ex3 : PyFloat.py_float "abc" = None.
Proof. reflexivity. Qed.
Example py_float_ex4 : PyFloat.py_float "" = None.
Proof. reflexivity. Qed.
Example py_float_ex5 : PyFloat.py_float ".5" = Some (PyFloat.Fin false 5 (-1)).
Proof. reflexivity. Qed.


Example strip_ex_unicode : strip (nbsp ++ " bob" ++ ideo_space ++ nbsp) = "bob".
Proof. reflexivity. Qed.
Example strip_ex_nbsp : strip nbsp = "".
Proof. reflexivity. Qed.
Example strip_ex_inner : strip ("a" ++ nbsp ++ "b") = "a" ++ nbsp ++ "b".
Proof. reflexivity. Qed.
Example py_float_ex6 : PyFloat.py_float (nbsp ++ "2.5" ++ ideo_space) = Some (PyFloat.Fin false 25 (-1)).
Proof. reflexivity. Qed.
Example parse_features_ex_nbsp :
  parse_features PyFloat.py_float ("1," ++ nbsp) = Return [PyFloat.Fin false 1 0].
Proof. reflexivity. Qed.

Example index_post_ex_success :
  index_post PyFloat.py_float PyFloat.is_nan dummy_scaler dummy_model env_ok (sample_form " bob ") empty_table
  = (mkTable [pred_row "bob" 0 sample_vals 1 1000] 2,
     flash_redirect "Prediction for bob: Benign" "success" "records").
Proof. reflexivity. Qed.

Example index_post_ex_count :
  snd (index_post PyFloat.py_float PyFloat.is_nan dummy_scaler dummy_model env_ok
         [("username", "x"); ("features", "1,2,,")] empty_table)
  = flash_redirect "Expected 30 values but got 2." "error" "index".
Proof. reflexivity. Qed.

Example index_post_ex_nbsp_name :
  index_post PyFloat.py_float PyFloat.is_nan dummy_scaler dummy_model env_ok
    (sample_form (nbsp ++ "bob")) empty_table
  = (mkTable [pred_row "bob" 0 sample_vals 1 1000] 2,
     flash_redirect "Prediction for bob: Benign" "success" "records").
Proof. reflexivity. Qed.

(** A NaN value is bound as NULL: the NOT NULL constraint fails. *)
Example index_post_ex_nan_value :
  index_post PyFloat.py_float PyFloat.is_nan dummy_scaler dummy_model env_ok
    [("username", "x"); ("features", nan_features)] empty_table
  = (empty_table,
     flash_redirect "Error saving to database. Your prediction was: Benign" "warning" "index").
Proof. reflexivity. Qed.

Example index_post_ex_nan_text :
  snd (index_post PyFloat.py_float PyFloat.is_nan dummy_scaler dummy_model env_ok
         [("username", "x"); ("features", "1,abc")] empty_table)
  = flash_redirect "All feature fields must be valid numbers." "error" "index".
Proof. reflexivity. Qed.

(* ------------------------------------------------------------------ *)
(** ** Association lists and [combine] *)

Section Assoc.
Context {B : Type}.

Lemma assoc_In_value (k : string) (ks : list string) (vs : list B) (v : B) :
  assoc k (combine ks vs) = Some v -> In v vs.
Proof.
  revert vs; induction ks as [|k' ks IH]; intros [|v' vs] H; simpl in *; try discriminate.
  destruct (String.eqb k k'); [injection H as <-; now left | right; eauto].
Qed.

Lemma assoc_combine_found (k : string) (ks : list string) (vs : list B) :
  In k ks -> length ks = length vs -> assoc k (combine ks vs) <> None.
Proof.
  revert vs; induction ks as [|k' ks IH]; intros [|v' vs] Hin Hlen; simpl in *;
    try discriminate; try contradiction.
  destruct (String.eqb_spec k k') as [->|Hne]; [discriminate|].
  destruct Hin as [->|Hin]; [contradiction|].
  apply IH; auto.
Qed.

Lemma assoc_combine_nodup (ks : list string) (vs : list B) :
  NoDup ks -> length ks = length vs ->
  map (fun k => assoc k (combine ks vs)) ks = map Some vs.
Proof.
  revert vs; induction ks as [|k ks IH]; intros [|v vs] Hnd Hlen; simpl in *;
    try discriminate; auto.
  inversion Hnd as [|? ? Hnotin Hnd']; subst.
  rewrite String.eqb_refl; f_equal.
  rewrite <- (IH vs Hnd') by congruence.
  apply map_ext_in; intros k' Hk'.
  destruct (String.eqb_spec k' k) as [->|]; [contradiction|reflexivity].
Qed.

(** Looking a key up in a row built column by column yields that column. *)
Lemma assoc_map_self (g : string -> B) (cols : list string) (c : string) :
  In c cols -> assoc c (map (fun c' => (c', g c')) cols) = Some (g c).
Proof.
  induction cols as [|c' cols IH]; simpl; [contradiction|].
  destruct (String.eqb_spec c c') as [->|Hne]; [reflexivity|].
  intros [->|Hin]; [contradiction|auto].
Qed.

End Assoc.

Lemma map_fst_combine {A B : Type} (l : list A) (l' : list B) :
  length l = length l' -> map fst (combine l l') = l.
Proof. revert l'; induction l as [|a l IH]; intros [|b l'] H; simpl in *; try discriminate; f_equal; auto. Qed.

Lemma map_snd_combine {A B : Type} (l : list A) (l' : list B) :
  length l = length l' -> map snd (combine l l') = l'.
Proof. revert l'; induction l as [|a l IH]; intros [|b l'] H; simpl in *; try discriminate; f_equal; auto. Qed.

Lemma nodupb_NoDup (l : list string) : nodupb l = true -> NoDup l.
Proof.
  induction l as [|x l IH]; simpl; intros H; constructor.
  - apply andb_true_iff in H as [H _]. apply negb_true_iff in H.
    intros Hin. assert (existsb (String.eqb x) l = true) as E.
    { apply existsb_exists. exists x. split; auto. apply String.eqb_refl. }
    congruence.
  - apply andb_true_iff in H as [_ H]. auto.
Qed.

Lemma sanitized_nodup : NoDup (map sanitize feature_names).
Proof. apply nodupb_NoDup. vm_compute. reflexivity. Qed.

Lemma sanitized_not_meta (c : string) :
  In c (map sanitize feature_names) ->
  c <> "id" /\ c <> "username" /\ c <> "timestamp" /\ c <> "prediction".
Proof.
  intros Hin.
  assert (Hall : forallb (fun c => negb (String.eqb c "id") && negb (String.eqb c "username")
                   && negb (String.eqb c "timestamp") && negb (String.eqb c "prediction"))
                   (map sanitize feature_names) = true) by (vm_compute; reflexivity).
  rewrite forallb_forall in Hall. specialize (Hall c Hin).
  repeat rewrite andb_true_iff in Hall. repeat rewrite negb_true_iff in Hall.
  destruct Hall as [[[H1 H2] H3] H4].
  repeat split; intros ->; vm_compute in *; discriminate.
Qed.

Lemma length_sanitized : length (map sanitize feature_names) = 30%nat.
Proof. reflexivity. Qed.

(* ------------------------------------------------------------------ *)
(** ** The row written by the INSERT *)

Section Insert.
Context {num : Type} (is_nan : num -> bool).

Lemma table_columns_eq :
  table_columns = "id" :: "username" :: "timestamp" :: "prediction" :: (map sanitize feature_names).
Proof. reflexivity. Qed.

Lemma cell_value_feature (u : string) (p : Z) (ws : list (@sqlval num)) (next now : Z)
    (c : string) :
  In c (map sanitize feature_names) ->
  cell_value pred_cols (ins_params u p ws) next now c
  = unwrap_null (assoc c (combine (map sanitize feature_names) ws)).
Proof.
  intros Hin. destruct (sanitized_not_meta c Hin) as (Hid & Hus & Hts & Hpr).
  unfold cell_value, pred_cols, ins_params. cbn [combine assoc].
  apply String.eqb_neq in Hid, Hus, Hts, Hpr.
  rewrite Hus, Hpr.
  destruct (assoc c _); [reflexivity|].
  rewrite Hid, Hts. reflexivity.
Qed.

Lemma map_cell_features (u : string) (p : Z) (ws : list (@sqlval num)) (next now : Z) :
  length ws = 30%nat ->
  map (cell_value pred_cols (ins_params u p ws) next now) (map sanitize feature_names) = ws.
Proof.
  intros Hlen.
  rewrite (map_ext_in _ (fun c => unwrap_null (assoc c (combine (map sanitize feature_names) ws))))
    by (intros c Hc; apply cell_value_feature; exact Hc).
  rewrite <- (map_map (fun c => assoc c (combine (map sanitize feature_names) ws)) unwrap_null).
  rewrite assoc_combine_nodup.
  - rewrite map_map. apply map_id.
  - exact sanitized_nodup.
  - rewrite length_map, Hlen. reflexivity.
Qed.

Lemma map_pair_combine (g : string -> @sqlval num) (ks : list string) :
  map (fun c => (c, g c)) ks = combine ks (map g ks).
Proof. induction ks as [|k ks IH]; simpl; congruence. Qed.

(** Positional read-back: after [id, username, timestamp, prediction]
    the row holds the 30 feature columns in [feature_names] order, each
    with the corresponding bound value. *)
Lemma ins_row_skipn (u : string) (p : Z) (ws : list (@sqlval num)) (next now : Z) :
  length ws = 30%nat ->
  skipn 4 (ins_row u p ws next now) = combine (map sanitize feature_names) ws.
Proof.
  intros Hlen. unfold ins_row. rewrite table_columns_eq. cbn [map skipn].
  rewrite map_pair_combine, map_cell_features by exact Hlen. reflexivity.
Qed.

(** Read-back by column name. *)
Lemma ins_row_read_features (u : string) (p : Z) (ws : list (@sqlval num)) (next now : Z) :
  length ws = 30%nat ->
  read_features (ins_row u p ws next now) = ws.
Proof.
  intros Hlen. unfold read_features, ins_row.
  rewrite (map_ext_in _ (fun fn => cell_value pred_cols (ins_params u p ws) next now
                                     (sanitize fn))).
  - rewrite <- (map_map sanitize). apply map_cell_features. exact Hlen.
  - intros fn Hfn. rewrite assoc_map_self; [reflexivity|].
    rewrite table_columns_eq. do 4 right. apply in_map. exact Hfn.
Qed.

Lemma ins_row_meta (u : string) (p : Z) (ws : list (@sqlval num)) (next now : Z) :
  firstn 4 (ins_row u p ws next now)
  = [("id", SInt next); ("username", SText u); ("timestamp", STime now);
     ("prediction", SInt p)].
Proof.
  unfold ins_row. rewrite table_columns_eq. cbn [map firstn].
  unfold cell_value, pred_cols, ins_params. cbn [combine assoc String.eqb].
  assert (Hn : forall c, c = "id" \/ c = "timestamp" ->
                 assoc c (combine (map sanitize feature_names) ws) = None).
  { intros c Hc.
    destruct (assoc c _) as [v|] eqn:E; [|reflexivity]. exfalso.
    assert (Hin : In c (map sanitize feature_names)).
    { revert E. generalize ws.
      induction (map sanitize feature_names) as [|k ks IH]; intros [|w ws'] E; simpl in *; try discriminate.
      destruct (String.eqb_spec c k) as [->|]; [now left|right; eauto]. }
    destruct (sanitized_not_meta c Hin) as (? & ? & ? & ?). intuition. }
  rewrite (Hn "id"), (Hn "timestamp") by auto.
  reflexivity.
Qed.

Lemma pred_row_skipn (u : string) (p : Z) (vals : list num) (next now : Z) :
  length vals = 30%nat ->
  skipn 4 (pred_row u p vals next now) = combine (map sanitize feature_names) (map SReal vals).
Proof. intros Hlen. apply ins_row_skipn. rewrite length_map. exact Hlen. Qed.

Lemma pred_row_read_features (u : string) (p : Z) (vals : list num) (next now : Z) :
  length vals = 30%nat ->
  read_features (pred_row u p vals next now) = map SReal vals.
Proof. intros Hlen. apply ins_row_read_features. rewrite length_map. exact Hlen. Qed.

Lemma pred_row_meta (u : string) (p : Z) (vals : list num) (next now : Z) :
  length vals = 30%nat ->
  firstn 4 (pred_row u p vals next now)
  = [("id", SInt next); ("username", SText u); ("timestamp", STime now);
     ("prediction", SInt p)].
Proof. intros _. apply ins_row_meta. Qed.

Lemma existsb_combine_snd (f : @sqlval num -> bool) (ks : list string) (ws : list sqlval) :
  length ks = length ws ->
  existsb (fun cv => f (snd cv)) (combine ks ws) = existsb f ws.
Proof.
  revert ws; induction ks as [|k ks IH]; intros [|w ws] H; simpl in *; try discriminate;
    [reflexivity|]. rewrite IH by congruence. reflexivity.
Qed.

(** The NOT NULL check on the row sees exactly the NULLs among the bound
    feature values. *)
Lemma existsb_null_ins_row (u : string) (p : Z) (ws : list (@sqlval num)) (next now : Z) :
  length ws = 30%nat ->
  existsb (fun cv => is_null (snd cv)) (ins_row u p ws next now) = existsb is_null ws.
Proof.
  intros Hlen.
  rewrite <- (firstn_skipn 4 (ins_row u p ws next now)).
  rewrite existsb_app, ins_row_meta, ins_row_skipn by exact Hlen.
  rewrite existsb_combine_snd by (rewrite length_map, Hlen; reflexivity).
  reflexivity.
Qed.

Lemma existsb_null_bind (vals : list num) :
  existsb is_null (map (bind_real is_nan) vals) = existsb is_nan vals.
Proof.
  induction vals as [|x vals IH]; [reflexivity|].
  simpl. unfold bind_real. destruct (is_nan x); simpl; [reflexivity|exact IH].
Qed.

Lemma map_bind_real_ok (vals : list num) :
  existsb is_nan vals = false -> map (bind_real is_nan) vals = map SReal vals.
Proof.
  induction vals as [|x vals IH]; [reflexivity|].
  simpl. intros H. apply orb_false_iff in H as [Hx Hr].
  unfold bind_real at 1. rewrite Hx, IH by exact Hr. reflexivity.
Qed.

(** A successful INSERT: working database, 30 values, none of them a
    NaN (a NaN is bound as NULL and fails the NOT NULL constraint), and
    the row [pred_row] appended. *)
Lemma insert_prediction_Some_full (e : env) (u : string) (p : Z) (vals : list num)
    (t t' : table) :
  insert_prediction is_nan e u p vals t = Some t' ->
  env_db_fails e = false /\ length vals = 30%nat /\ existsb is_nan vals = false /\
  t' = mkTable (tbl_rows t ++ [pred_row u p vals (tbl_next_id t) (env_now e)])
               (tbl_next_id t + 1).
Proof.
  unfold insert_prediction, sql_insert.
  destruct (env_db_fails e); [cbv beta iota; intros H; discriminate H|].
  cbv zeta.
  destruct (negb (Nat.eqb (length ("username" :: "prediction" :: (map sanitize feature_names)))
                          (2 + length vals))) eqn:E1; [cbv beta iota; intros H; discriminate H|].
  cbv beta iota.
  apply negb_false_iff, Nat.eqb_eq in E1. simpl in E1.
  assert (Hl : length vals = 30%nat) by lia.
  repeat match goal with
         | |- (if ?b then None else _) = Some _ -> _ =>
             destruct b eqn:?; [cbv beta iota; intros H; discriminate H|cbv beta iota]
         end.
  intros H. injection H as <-.
  match goal with
  | Hn : existsb (fun cv => is_null (snd cv)) _ = false |- _ =>
      change (existsb (fun cv => is_null (snd cv))
                (ins_row u p (map (bind_real is_nan) vals) (tbl_next_id t) (env_now e)) = false)
        in Hn;
      rewrite existsb_null_ins_row, existsb_null_bind in Hn
        by (rewrite length_map; exact Hl)
  end.
  split; [reflexivity|split; [exact Hl|split; [assumption|]]].
  unfold pred_row. rewrite <- map_bind_real_ok by assumption.
  reflexivity.
Qed.

Lemma insert_prediction_Some (e : env) (u : string) (p : Z) (vals : list num) (t t' : table) :
  insert_prediction is_nan e u p vals t = Some t' ->
  env_db_fails e = false /\ length vals = 30%nat /\
  t' = mkTable (tbl_rows t ++ [pred_row u p vals (tbl_next_id t) (env_now e)])
               (tbl_next_id t + 1).
Proof.
  intros H. apply insert_prediction_Some_full in H as (H1 & H2 & _ & H4).
  split; [exact H1|split; [exact H2|exact H4]].
Qed.

(** A NaN among the values makes the INSERT fail. *)
Lemma insert_prediction_nan (e : env) (u : string) (p : Z) (vals : list num) (t : table) :
  existsb is_nan vals = true -> insert_prediction is_nan e u p vals t = None.
Proof.
  intros Hn. destruct (insert_prediction is_nan e u p vals t) as [t'|] eqn:H; [|reflexivity].
  apply insert_prediction_Some_full in H as (_ & _ & H & _). congruence.
Qed.

Lemma existsb_null_combine_SReal (ks : list string) (vs : list num) :
  existsb (fun cv => is_null (snd cv)) (combine ks (map SReal vs)) = false.
Proof.
  revert vs; induction ks as [|k ks IH]; intros [|v vs]; simpl; auto.
Qed.

Lemma pred_cols_known :
  existsb (fun c => negb (existsb (String.eqb c) table_columns)) pred_cols = false.
Proof. vm_compute. reflexivity. Qed.

(** With a working database, the INSERT of a 30-value vector without NaN
    succeeds and appends [pred_row]. *)
Lemma insert_prediction_ok (e : env) (u : string) (p : Z) (vals : list num) (t : table) :
  env_db_fails e = false -> length vals = 30%nat -> existsb is_nan vals = false ->
  insert_prediction is_nan e u p vals t
  = Some (mkTable (tbl_rows t ++ [pred_row u p vals (tbl_next_id t) (env_now e)])
                  (tbl_next_id t + 1)).
Proof.
  intros Hdb Hlen Hnan.
  assert (Hnull : existsb (fun cv => is_null (snd cv))
                    (pred_row u p vals (tbl_next_id t) (env_now e)) = false).
  { rewrite <- (firstn_skipn 4 (pred_row u p vals (tbl_next_id t) (env_now e))).
    rewrite existsb_app, pred_row_meta, pred_row_skipn by exact Hlen.
    rewrite existsb_null_combine_SReal. reflexivity. }
  unfold insert_prediction, sql_insert. rewrite Hdb. cbv zeta.
  rewrite (map_bind_real_ok vals Hnan).
  change ("username" :: "prediction" :: map sanitize feature_names) with pred_cols.
  change (SText u :: SInt p :: map SReal vals) with (ins_params u p (map SReal vals)).
  change (map (fun c => (c, cell_value pred_cols (ins_params u p (map SReal vals)) (tbl_next_id t)
                              (env_now e) c)) table_columns)
    with (pred_row u p vals (tbl_next_id t) (env_now e)).
  replace (negb (Nat.eqb (length pred_cols) (2 + length vals))) with false
    by (rewrite Hlen; reflexivity).
  replace (negb (Nat.eqb (length (ins_params u p (map SReal vals))) (2 + length vals))) with false
    by (unfold ins_params; simpl; rewrite length_map, Nat.eqb_refl; reflexivity).
  rewrite pred_cols_known, Hnull.
  reflexivity.
Qed.

End Insert.

(* ------------------------------------------------------------------ *)
(** ** The POST handler: case analysis *)

Section Handler.
Context {num : Type} (py_float : string -> option num) (is_nan : num -> bool).

Lemma parse_list_invalid (frags : list string) (v : string) :
  In v frags -> strip v <> "" -> py_float (strip v) = None ->
  parse_list py_float frags = Raise ValueError.
Proof.
  intros Hin Hne Hnone. induction frags as [|w frags IH]; [contradiction|].
  simpl. destruct Hin as [->|Hin].
  - apply String.eqb_neq in Hne. rewrite Hne, Hnone. reflexivity.
  - destruct (String.eqb (strip w) ""); [auto|].
    destruct (py_float (strip w)); [|reflexivity].
    rewrite IH by exact Hin. reflexivity.
Qed.

Lemma parse_list_skips_blank (frags : list string) :
  parse_list py_float frags
  = parse_list py_float (filter (fun v => negb (String.eqb (strip v) "")) frags).
Proof.
  induction frags as [|w frags IH]; [reflexivity|].
  simpl. destruct (String.eqb (strip w) "") eqn:E; simpl; [exact IH|].
  rewrite E. destruct (py_float (strip w)); [|reflexivity].
  rewrite IH. reflexivity.
Qed.

(** Every run of the POST branch either leaves the table alone and does not
    report success, or parses 30 values, classifies them, appends the row
    and reports success. *)
Lemma index_post_cases (sc : Scaler) (m : Model) (e : env) (f : form) (t t' : table)
    (resp : response) :
  index_post py_float is_nan sc m e f t = (t', resp) ->
  (is_success resp = false /\ t' = t) \/
  (exists u raw vals pred,
      form_get f "username" = Return u /\ form_get f "features" = Return raw /\
      parse_features py_float raw = Return vals /\ length vals = 30%nat /\
      classify sc m vals = Some pred /\
      insert_prediction is_nan e (strip u) pred vals t = Some t' /\
      resp = flash_redirect ("Prediction for " ++ strip u ++ ": " ++ label_text pred)
               "success" "records").
Proof.
  unfold index_post, index_post_body.
  destruct (form_get f "username") as [u|ex] eqn:Hu; cbn [obind];
    [|destruct ex; intros H; injection H as <- <-; left; split; reflexivity].
  destruct (form_get f "features") as [raw|ex] eqn:Hf; cbn [obind];
    [|destruct ex; intros H; injection H as <- <-; left; split; reflexivity].
  destruct (parse_features py_float raw) as [vals|ex] eqn:Hp; cbn [obind];
    [|destruct ex; intros H; injection H as <- <-; left; split; reflexivity].
  destruct (Nat.eqb (length vals) (length feature_names)) eqn:Hl; cbn [negb];
    [|intros H; injection H as <- <-; left; split; reflexivity].
  destruct (classify sc m vals) as [pred|] eqn:Hc;
    [|intros H; injection H as <- <-; left; split; reflexivity].
  destruct (insert_prediction is_nan e (strip u) pred vals t) as [t1|] eqn:Hi;
    intros H; injection H as <- <-; [|left; split; reflexivity].
  right. exists u, raw, vals, pred.
  apply Nat.eqb_eq in Hl.
  repeat split; auto.
Qed.

Lemma index_post_success (sc : Scaler) (m : Model) (e : env) (f : form) (t t' : table)
    (resp : response) :
  index_post py_float is_nan sc m e f t = (t', resp) -> is_success resp = true ->
  exists u raw vals pred,
    form_get f "username" = Return u /\ form_get f "features" = Return raw /\
    parse_features py_float raw = Return vals /\ length vals = 30%nat /\
    classify sc m vals = Some pred /\
    t' = mkTable (tbl_rows t ++ [pred_row (strip u) pred vals (tbl_next_id t) (env_now e)])
                 (tbl_next_id t + 1) /\
    resp = flash_redirect ("Prediction for " ++ strip u ++ ": " ++ label_text pred)
             "success" "records".
Proof.
  intros H Hs. destruct (index_post_cases sc m e f t t' resp H) as [[Hf _]|Hok];
    [congruence|].
  destruct Hok as (u & raw & vals & pred & Hu & Hr & Hp & Hl & Hc & Hi & Hresp).
  apply insert_prediction_Some in Hi as (_ & _ & Ht').
  exists u, raw, vals, pred. repeat split; auto.
Qed.

(** The prefix of the body up to the count check, for a well-formed form. *)
Lemma index_post_parsed (sc : Scaler) (m : Model) (e : env) (f : form) (t : table)
    (u raw : string) (vals : list num) :
  form_get f "username" = Return u -> form_get f "features" = Return raw ->
  parse_features py_float raw = Return vals -> length vals = 30%nat ->
  index_post py_float is_nan sc m e f t =
    match classify sc m vals with
    | None => (t, flash_redirect "Error making prediction. Please try again." "error" "index")
    | Some pred =>
        match insert_prediction is_nan e (strip u) pred vals t with
        | None =>
            (t, flash_redirect
                  ("Error saving to database. Your prediction was: " ++ label_text pred)
                  "warning" "index")
        | Some t' =>
            (t', flash_redirect ("Prediction for " ++ strip u ++ ": " ++ label_text pred)
                   "success" "records")
        end
    end.
Proof.
  intros Hu Hr Hp Hl.
  unfold index_post, index_post_body. rewrite Hu. cbn [obind]. rewrite Hr. cbn [obind].
  rewrite Hp. cbn [obind]. rewrite Hl. cbn [negb Nat.eqb length feature_names].
  destruct (classify sc m vals) as [pred|]; [|reflexivity].
  destruct (insert_prediction is_nan e (strip u) pred vals t); reflexivity.
Qed.

End Handler.

(* ------------------------------------------------------------------ *)
(** ** [ORDER BY timestamp DESC] is always satisfiable *)

Section Listing.
Context {num : Type}.

Lemma insert_desc_perm (r : @row num) (l : list row) : Permutation (r :: l) (insert_desc r l).
Proof.
  induction l as [|x l IH]; simpl; [reflexivity|].
  destruct (Z.leb (row_timestamp x) (row_timestamp r)); [reflexivity|].
  transitivity (x :: r :: l); [apply perm_swap|]. constructor. exact IH.
Qed.

Lemma insert_desc_hd (x r : @row num) (l : list row) :
  HdRel ts_desc x l -> ts_desc x r -> HdRel ts_desc x (insert_desc r l).
Proof.
  intros Hd Hxr. destruct l as [|y l]; simpl; [constructor; exact Hxr|].
  destruct (Z.leb (row_timestamp y) (row_timestamp r)); constructor; [exact Hxr|].
  inversion Hd; assumption.
Qed.

Lemma insert_desc_sorted (r : @row num) (l : list row) :
  Sorted ts_desc l -> Sorted ts_desc (insert_desc r l).
Proof.
  induction l as [|x l IH]; intros Hs; simpl.
  - repeat constructor.
  - destruct (Z.leb (row_timestamp x) (row_timestamp r)) eqn:E.
    + constructor; [exact Hs|]. constructor. unfold ts_desc. apply Z.leb_le. exact E.
    + inversion Hs as [|? ? Hs' Hd]; subst.
      constructor; [apply IH; exact Hs'|].
      apply insert_desc_hd; [exact Hd|].
      unfold ts_desc. apply Z.leb_gt in E. lia.
Qed.

Lemma sort_desc_ordered (l : list (@row num)) : ordered_by_timestamp_desc l (sort_desc l).
Proof.
  split.
  - induction l as [|x l IH]; simpl; [constructor|].
    transitivity (x :: sort_desc l); [constructor; exact IH|apply insert_desc_perm].
  - induction l as [|x l IH]; simpl; [constructor|].
    apply insert_desc_sorted. exact IH.
Qed.

End Listing.

(** Rows of the table after a sequence of POST requests. *)
Lemma run_posts_rows {num : Type} (py_float : string -> option num)
    (is_nan : num -> bool) (sc : Scaler) (m : Model)
    (reqs : list (env * form)) (t : table) :
  length (tbl_rows (fst (run_posts py_float is_nan sc m t reqs)))
  = (length (tbl_rows t) + count_success (snd (run_posts py_float is_nan sc m t reqs)))%nat.
Proof.
  revert t; induction reqs as [|[e f] reqs IH]; intros t; simpl; [unfold count_success; simpl; lia|].
  destruct (index_post py_float is_nan sc m e f t) as [t1 r] eqn:Hp.
  specialize (IH t1).
  destruct (run_posts py_float is_nan sc m t1 reqs) as [t2 rs] eqn:Hr. simpl in *.
  unfold count_success in *. simpl.
  destruct (index_post_cases py_float is_nan sc m e f t t1 r Hp) as [[Hf ->]|Hok].
  - rewrite Hf. exact IH.
  - destruct Hok as (u & raw & vals & pred & _ & _ & _ & _ & _ & Hi & ->).
    apply insert_prediction_Some in Hi as (_ & _ & ->).
    simpl in *. rewrite IH, length_app. simpl. lia.
Qed.

(* ================================================================== *)
(** * Properties of [index] and [records] *)

(** C1: on every successful submission the row appended to [predictions]
    holds exactly the parsed values of the [features] field; the scaler
    only sees them inside [classify], whose result is the stored label. *)
Theorem stored_features_are_parsed_values {num : Type} (py_float : string -> option num)
    (is_nan : num -> bool)
    (sc : Scaler) (m : Model) (e : env) (f : form) (t t' : table) (resp : response) :
  index_post py_float is_nan sc m e f t = (t', resp) -> is_success resp = true ->
  exists raw vals pred r,
    form_get f "features" = Return raw /\
    parse_features py_float raw = Return vals /\
    classify sc m vals = Some pred /\
    tbl_rows t' = (tbl_rows t ++ [r])%list /\
    read_features r = map SReal vals /\
    skipn 4 r = combine (map sanitize feature_names) (map SReal vals) /\
    assoc "prediction" r = Some (SInt pred).
Proof.
  intros H Hs.
  destruct (index_post_success py_float is_nan sc m e f t t' resp H Hs)
    as (u & raw & vals & pred & _ & Hr & Hp & Hl & Hc & -> & _).
  set (r := pred_row (strip u) pred vals (tbl_next_id t) (env_now e)).
  assert (H1 : read_features r = map SReal vals) by (apply pred_row_read_features; exact Hl).
  assert (H2 : skipn 4 r = combine (map sanitize feature_names) (map SReal vals))
    by (apply pred_row_skipn; exact Hl).
  assert (H3 : assoc "prediction" r = Some (SInt pred)).
  { unfold r. rewrite <- (firstn_skipn 4 (pred_row _ _ _ _ _)), pred_row_meta by exact Hl.
    reflexivity. }
  exists raw, vals, pred, r. repeat split; assumption.
Qed.

Lemma stored_features_are_parsed_values_witness :
  exists raw vals pred r,
    form_get (sample_form "ann") "features" = Return raw /\
    parse_features PyFloat.py_float raw = Return vals /\
    classify dummy_scaler dummy_model vals = Some pred /\
    tbl_rows (fst (index_post PyFloat.py_float PyFloat.is_nan dummy_scaler dummy_model env_ok
                     (sample_form "ann") empty_table)) = (tbl_rows empty_table ++ [r])%list /\
    read_features r = map SReal vals /\
    skipn 4 r = combine (map sanitize feature_names) (map SReal vals) /\
    assoc "prediction" r = Some (SInt pred).
Proof.
  apply (stored_features_are_parsed_values PyFloat.py_float PyFloat.is_nan dummy_scaler dummy_model env_ok
           (sample_form "ann") empty_table _
           (snd (index_post PyFloat.py_float PyFloat.is_nan dummy_scaler dummy_model env_ok
                   (sample_form "ann") empty_table))).
  - reflexivity.
  - vm_compute. reflexivity.
Defined.

(** C2: the INSERT of a known 30-value vector appends one row whose
    feature columns, read back by position after the four leading columns
    or by name, give the same vector in [feature_names] order. *)
Theorem insert_read_back_roundtrip {num : Type} (is_nan : num -> bool) (e : env) (u : string) (p : Z)
    (vals : list num) (t t' : table) :
  length vals = 30%nat -> insert_prediction is_nan e u p vals t = Some t' ->
  exists r, tbl_rows t' = (tbl_rows t ++ [r])%list /\
    map fst (skipn 4 r) = map sanitize feature_names /\
    map snd (skipn 4 r) = map SReal vals /\
    read_features r = map SReal vals.
Proof.
  intros Hl Hi. apply insert_prediction_Some in Hi as (_ & _ & ->).
  exists (pred_row u p vals (tbl_next_id t) (env_now e)).
  rewrite pred_row_skipn, pred_row_read_features by exact Hl.
  repeat split.
  - rewrite map_fst_combine; [reflexivity|]. rewrite !length_map, Hl. reflexivity.
  - rewrite map_snd_combine; [reflexivity|]. rewrite !length_map, Hl. reflexivity.
Qed.

Lemma insert_read_back_roundtrip_witness :
  exists r, tbl_rows (mkTable [pred_row "ann" 1 sample_vals 1 1000] 2)
            = (tbl_rows (@empty_table PyFloat.pyval) ++ [r])%list /\
    map fst (skipn 4 r) = map sanitize feature_names /\
    map snd (skipn 4 r) = map SReal sample_vals /\
    read_features r = map SReal sample_vals.
Proof.
  apply (insert_read_back_roundtrip PyFloat.is_nan env_ok "ann" 1 sample_vals empty_table).
  - reflexivity.
  - vm_compute. reflexivity.
Defined.

(** C3: a submission whose parsed feature count is not 30 is answered with
    "Expected 30 values but got N." (category error) and the table is
    left unchanged. *)
Theorem count_mismatch_rejected {num : Type} (py_float : string -> option num)
    (is_nan : num -> bool)
    (sc : Scaler) (m : Model) (e : env) (f : form) (t : table)
    (u raw : string) (vals : list num) :
  form_get f "username" = Return u -> form_get f "features" = Return raw ->
  parse_features py_float raw = Return vals ->
  length vals <> length feature_names ->
  index_post py_float is_nan sc m e f t
  = (t, flash_redirect ("Expected 30 values but got " ++ nat_str (length vals) ++ ".")
          "error" "index").
Proof.
  intros Hu Hr Hp Hl.
  unfold index_post, index_post_body. rewrite Hu. cbn [obind]. rewrite Hr. cbn [obind].
  rewrite Hp. cbn [obind].
  apply Nat.eqb_neq in Hl. rewrite Hl. reflexivity.
Qed.

Lemma count_mismatch_rejected_witness :
  index_post PyFloat.py_float PyFloat.is_nan dummy_scaler dummy_model env_ok
    [("username", "x"); ("features", "1, 2,,")] empty_table
  = (empty_table, flash_redirect "Expected 30 values but got 2." "error" "index").
Proof.
  apply (count_mismatch_rejected PyFloat.py_float PyFloat.is_nan dummy_scaler dummy_model env_ok _ empty_table
           "x" "1, 2,," [PyFloat.Fin false 1 0; PyFloat.Fin false 2 0]).
  - reflexivity.
  - reflexivity.
  - reflexivity.
  - simpl. discriminate.
Defined.

(** C4 (as stated): a fragment that is non-empty but blank, such as the
    [" "] after a trailing [", "], does not parse as a number, yet the
    submission is accepted and a row is written. *)
Lemma invalid_number_claim_counterexample :
  In " " (split_on "," (sample_features ++ ", ")) /\
  " " <> "" /\
  PyFloat.py_float " " = None /\
  index_post PyFloat.py_float PyFloat.is_nan dummy_scaler dummy_model env_ok
    [("username", "x"); ("features", sample_features ++ ", ")] empty_table
  = (mkTable [pred_row "x" 0 sample_vals 1 1000] 2,
     flash_redirect "Prediction for x: Benign" "success" "records").
Proof.
  split; [|split; [discriminate|split; reflexivity]].
  assert (E : existsb (String.eqb " ") (split_on "," (sample_features ++ ", ")) = true)
    by reflexivity.
  apply existsb_exists in E as (x & Hx & Ex). apply String.eqb_eq in Ex. subst x. exact Hx.
Qed.

(** C4 (amended): a fragment that is non-blank after [strip()] and that
    [float()] rejects makes the handler answer "All feature fields must be
    valid numbers." and leave the table unchanged; blank fragments (empty
    or whitespace only) are dropped before parsing. *)
Theorem invalid_fragment_rejected {num : Type} (py_float : string -> option num)
    (is_nan : num -> bool)
    (sc : Scaler) (m : Model) (e : env) (f : form) (t : table) (u raw v : string) :
  form_get f "username" = Return u -> form_get f "features" = Return raw ->
  In v (split_on "," raw) -> strip v <> "" -> py_float (strip v) = None ->
  index_post py_float is_nan sc m e f t
  = (t, flash_redirect "All feature fields must be valid numbers." "error" "index") /\
  parse_features py_float raw
  = parse_list py_float (filter (fun w => negb (String.eqb (strip w) "")) (split_on "," raw)).
Proof.
  intros Hu Hr Hin Hne Hnone. split.
  - unfold index_post, index_post_body. rewrite Hu. cbn [obind]. rewrite Hr. cbn [obind].
    unfold parse_features. rewrite (parse_list_invalid py_float _ v Hin Hne Hnone).
    reflexivity.
  - apply parse_list_skips_blank.
Qed.

Lemma invalid_fragment_rejected_witness :
  index_post PyFloat.py_float PyFloat.is_nan dummy_scaler dummy_model env_ok
    [("username", "x"); ("features", "1, ,abc")] empty_table
  = (empty_table, flash_redirect "All feature fields must be valid numbers." "error" "index") /\
  parse_features PyFloat.py_float "1, ,abc"
  = parse_list PyFloat.py_float
      (filter (fun w => negb (String.eqb (strip w) "")) (split_on "," "1, ,abc")).
Proof.
  apply (invalid_fragment_rejected PyFloat.py_float PyFloat.is_nan dummy_scaler dummy_model env_ok _
           empty_table "x" "1, ,abc" "abc").
  - reflexivity.
  - reflexivity.
  - simpl. right. right. left. reflexivity.
  - vm_compute. intros H. discriminate H.
  - reflexivity.
Defined.

(** C5: with the artifact file missing or failing to unpickle, startup
    installs [DummyModel] and [DummyScaler]; every well-formed submission
    is then classified 0 and reported "Benign" (stored when the database
    works and no value is a NaN, degraded notice otherwise). *)
Theorem stub_model_on_load_failure {num : Type} (py_float : string -> option num)
    (is_nan : num -> bool)
    (a : @artifact num) (e : env) (f : form) (t : table) (u raw : string) (vals : list num) :
  a = NoFile \/ a = ArtifactFile None ->
  form_get f "username" = Return u -> form_get f "features" = Return raw ->
  parse_features py_float raw = Return vals -> length vals = 30%nat ->
  load_model a = (dummy_model, dummy_scaler) /\
  classify (snd (load_model a)) (fst (load_model a)) vals = Some 0%Z /\
  index_post py_float is_nan (snd (load_model a)) (fst (load_model a)) e f t
  = if env_db_fails e || existsb is_nan vals
    then (t, flash_redirect "Error saving to database. Your prediction was: Benign"
               "warning" "index")
    else (mkTable (tbl_rows t ++ [pred_row (strip u) 0 vals (tbl_next_id t) (env_now e)])
                  (tbl_next_id t + 1),
          flash_redirect ("Prediction for " ++ strip u ++ ": Benign") "success" "records").
Proof.
  intros Ha Hu Hr Hp Hl.
  assert (Hload : load_model a = (dummy_model, dummy_scaler))
    by (destruct Ha as [->| ->]; reflexivity).
  rewrite Hload. cbn [fst snd].
  split; [reflexivity|split; [reflexivity|]].
  rewrite (index_post_parsed py_float is_nan dummy_scaler dummy_model e f t u raw vals Hu Hr Hp Hl).
  cbn [classify transform predict dummy_scaler dummy_model].
  destruct (env_db_fails e) eqn:Hdb.
  - unfold insert_prediction. rewrite Hdb. reflexivity.
  - cbn [orb]. destruct (existsb is_nan vals) eqn:Hn.
    + rewrite insert_prediction_nan by exact Hn. reflexivity.
    + rewrite insert_prediction_ok by assumption. reflexivity.
Qed.

Lemma stub_model_on_load_failure_witness :
  load_model (@NoFile PyFloat.pyval) = (dummy_model, dummy_scaler) /\
  classify (snd (load_model NoFile)) (fst (load_model NoFile)) sample_vals = Some 0%Z /\
  index_post PyFloat.py_float PyFloat.is_nan (snd (load_model NoFile)) (fst (load_model NoFile)) env_ok
    (sample_form "ann") empty_table
  = if env_db_fails env_ok || existsb PyFloat.is_nan sample_vals
    then (empty_table, flash_redirect "Error saving to database. Your prediction was: Benign"
                         "warning" "index")
    else (mkTable (tbl_rows empty_table ++ [pred_row (strip "ann") 0 sample_vals
                                               (tbl_next_id (@empty_table PyFloat.pyval)) (env_now env_ok)])
                  (tbl_next_id (@empty_table PyFloat.pyval) + 1),
          flash_redirect ("Prediction for " ++ strip "ann" ++ ": Benign") "success" "records").
Proof.
  apply (stub_model_on_load_failure PyFloat.py_float PyFloat.is_nan NoFile env_ok (sample_form "ann")
           empty_table "ann" sample_features sample_vals).
  - left. reflexivity.
  - reflexivity.
  - reflexivity.
  - vm_compute. reflexivity.
  - reflexivity.
Defined.

(** C6: when the prediction succeeds but the INSERT fails, the handler
    flashes "Error saving to database. Your prediction was: <label>" with
    category warning, redirects to the form, leaves the table unchanged,
    and this response is not the success response. *)
Theorem storage_fault_degraded_success {num : Type} (py_float : string -> option num)
    (is_nan : num -> bool)
    (sc : Scaler) (m : Model) (e : env) (f : form) (t : table)
    (u raw : string) (vals : list num) (pred : Z) :
  form_get f "username" = Return u -> form_get f "features" = Return raw ->
  parse_features py_float raw = Return vals -> length vals = 30%nat ->
  classify sc m vals = Some pred ->
  insert_prediction is_nan e (strip u) pred vals t = None ->
  index_post py_float is_nan sc m e f t
  = (t, flash_redirect ("Error saving to database. Your prediction was: " ++ label_text pred)
          "warning" "index") /\
  is_success (@flash_redirect num ("Error saving to database. Your prediction was: "
                              ++ label_text pred) "warning" "index") = false /\
  @flash_redirect num ("Error saving to database. Your prediction was: " ++ label_text pred)
    "warning" "index"
  <> flash_redirect ("Prediction for " ++ strip u ++ ": " ++ label_text pred) "success" "records".
Proof.
  intros Hu Hr Hp Hl Hc Hi.
  rewrite (index_post_parsed py_float is_nan sc m e f t u raw vals Hu Hr Hp Hl), Hc, Hi.
  split; [reflexivity|split; [reflexivity|]].
  intros H. injection H as _ Hcat. discriminate Hcat.
Qed.

Lemma storage_fault_degraded_success_witness :
  index_post PyFloat.py_float PyFloat.is_nan dummy_scaler dummy_model env_db_down (sample_form "ann")
    empty_table
  = (empty_table, flash_redirect ("Error saving to database. Your prediction was: "
                                   ++ label_text 0) "warning" "index") /\
  is_success (@flash_redirect PyFloat.pyval ("Error saving to database. Your prediction was: "
                              ++ label_text 0) "warning" "index") = false /\
  flash_redirect ("Error saving to database. Your prediction was: " ++ label_text 0)
    "warning" "index"
  <> @flash_redirect PyFloat.pyval ("Prediction for " ++ strip "ann" ++ ": " ++ label_text 0)
       "success" "records".
Proof.
  apply (storage_fault_degraded_success PyFloat.py_float PyFloat.is_nan dummy_scaler dummy_model env_db_down
           (sample_form "ann") empty_table "ann" sample_features sample_vals 0).
  - reflexivity.
  - reflexivity.
  - vm_compute. reflexivity.
  - reflexivity.
  - reflexivity.
  - reflexivity.
Defined.

(** C7: after any sequence of POST requests on a fresh table, the history
    page (when the read works) lists exactly as many rows as there were
    successful submissions, all stored rows, sorted by timestamp
    descending; such a listing always exists. *)
Theorem listing_after_successes {num : Type} (py_float : string -> option num)
    (is_nan : num -> bool)
    (sc : Scaler) (m : Model) (reqs : list (env * form)) (e : env) :
  env_db_fails e = false ->
  (exists out, records_resp e (fst (run_posts py_float is_nan sc m empty_table reqs))
                 (mkResp [] (RenderRecords out))) /\
  forall out,
    records_resp e (fst (run_posts py_float is_nan sc m empty_table reqs))
      (mkResp [] (RenderRecords out)) ->
    length out = count_success (snd (run_posts py_float is_nan sc m empty_table reqs)) /\
    Permutation (tbl_rows (fst (run_posts py_float is_nan sc m empty_table reqs))) out /\
    Sorted ts_desc out.
Proof.
  intros Hdb. split.
  - eexists. apply records_read_ok; [exact Hdb|]. apply sort_desc_ordered.
  - intros out H. inversion H as [out' _ [Hperm Hsorted]|]; subst.
    split; [|split; [exact Hperm|exact Hsorted]].
    rewrite <- (Permutation_length Hperm), run_posts_rows. reflexivity.
Qed.

Lemma listing_after_successes_witness :
  (exists out, records_resp env_ok (fst (run_posts PyFloat.py_float PyFloat.is_nan dummy_scaler dummy_model
                                          empty_table two_posts))
                 (mkResp [] (RenderRecords out))) /\
  forall out,
    records_resp env_ok (fst (run_posts PyFloat.py_float PyFloat.is_nan dummy_scaler dummy_model
                               empty_table two_posts))
      (mkResp [] (RenderRecords out)) ->
    length out = count_success (snd (run_posts PyFloat.py_float PyFloat.is_nan dummy_scaler dummy_model
                                       empty_table two_posts)) /\
    Permutation (tbl_rows (fst (run_posts PyFloat.py_float PyFloat.is_nan dummy_scaler dummy_model
                                  empty_table two_posts))) out /\
    Sorted ts_desc out.
Proof.
  apply (listing_after_successes PyFloat.py_float PyFloat.is_nan dummy_scaler dummy_model two_posts env_ok).
  reflexivity.
Defined.




(** C9 (as stated): when the read fails, [records] does not render an
    empty history: its only response is a redirect to the form page. *)
Lemma read_failure_claim_counterexample :
  records_resp env_db_down (@empty_table PyFloat.pyval)
    (flash_redirect "Error loading prediction records." "error" "index") /\
  (forall r, records_resp env_db_down (@empty_table PyFloat.pyval) r ->
             resp_page r = Redirect "index").
Proof.
  split.
  - apply records_read_fails. reflexivity.
  - intros r H. inversion H as [? Hdb|]; [discriminate Hdb|reflexivity].
Qed.

(** C9 (amended): when the read fails, [records] flashes "Error loading
    prediction records." (category error) and redirects to the entry form;
    this is its only response. *)
Theorem read_failure_redirects {num : Type} (e : env) (t : @table num) :
  env_db_fails e = true ->
  records_resp e t (flash_redirect "Error loading prediction records." "error" "index") /\
  (forall r, records_resp e t r ->
             r = flash_redirect "Error loading prediction records." "error" "index").
Proof.
  intros Hdb. split.
  - apply records_read_fails. exact Hdb.
  - intros r H. inversion H as [? Hok|]; [congruence|reflexivity].
Qed.

Lemma read_failure_redirects_witness :
  records_resp env_db_down (@empty_table PyFloat.pyval)
    (flash_redirect "Error loading prediction records." "error" "index") /\
  (forall r, records_resp env_db_down (@empty_table PyFloat.pyval) r ->
             r = flash_redirect "Error loading prediction records." "error" "index").
Proof. apply (read_failure_redirects env_db_down empty_table). reflexivity. Defined.

(** C10: a POST without the [username] or the [features] field raises
    [KeyError] inside the [try]; the outer [except Exception] answers
    "An unexpected error occurred. Please try again." and the table is
    unchanged. *)
Theorem missing_field_caught {num : Type} (py_float : string -> option num)
    (is_nan : num -> bool)
    (sc : Scaler) (m : Model) (e : env) (f : form) (t : table) :
  assoc "username" f = None \/ assoc "features" f = None ->
  index_post py_float is_nan sc m e f t
  = (t, flash_redirect "An unexpected error occurred. Please try again." "error" "index").
Proof.
  unfold index_post, index_post_body, form_get.
  intros [H|H]; rewrite H; cbn [obind]; [reflexivity|].
  destruct (assoc "username" f); reflexivity.
Qed.

Lemma missing_field_caught_witness :
  index_post PyFloat.py_float PyFloat.is_nan dummy_scaler dummy_model env_ok [("username", "x")] empty_table
  = (empty_table,
     flash_redirect "An unexpected error occurred. Please try again." "error" "index").
Proof.
  apply (missing_field_caught PyFloat.py_float PyFloat.is_nan dummy_scaler dummy_model env_ok _ empty_table).
  right. reflexivity.
Defined.

(* ================================================================== *)
(** * Further properties of the code *)

Section More.
Context {num : Type} (py_float : string -> option num) (is_nan : num -> bool).

Lemma pred_row_assoc_meta (u : string) (p : Z) (vals : list num) (next now : Z) :
  length vals = 30%nat ->
  assoc "id" (pred_row u p vals next now) = Some (SInt next) /\
  assoc "username" (pred_row u p vals next now) = Some (SText u) /\
  row_timestamp (pred_row u p vals next now) = now.
Proof.
  intros Hl. unfold row_timestamp.
  rewrite <- (firstn_skipn 4 (pred_row u p vals next now)), pred_row_meta by exact Hl.
  repeat split; reflexivity.
Qed.

(** One request either leaves the table as it is (and does not report
    success) or appends exactly one row (and reports success). *)
Lemma index_post_step (sc : Scaler) (m : Model) (e : env) (f : form) (t : table) :
  (is_success (snd (index_post py_float is_nan sc m e f t)) = false /\
   fst (index_post py_float is_nan sc m e f t) = t) \/
  (is_success (snd (index_post py_float is_nan sc m e f t)) = true /\
   exists u vals pred,
     length vals = 30%nat /\
     fst (index_post py_float is_nan sc m e f t)
     = mkTable (tbl_rows t ++ [pred_row u pred vals (tbl_next_id t) (env_now e)])
               (tbl_next_id t + 1)).
Proof.
  destruct (index_post py_float is_nan sc m e f t) as [t' r] eqn:H. cbn [fst snd].
  destruct (index_post_cases py_float is_nan sc m e f t t' r H) as [Hn|Hok]; [left; exact Hn|].
  destruct Hok as (u & raw & vals & pred & _ & _ & _ & Hl & _ & Hi & ->).
  apply insert_prediction_Some in Hi as (_ & _ & ->).
  right. split; [reflexivity|]. exists (strip u), vals, pred. split; [exact Hl|reflexivity].
Qed.

Lemma nonblank_absent (a : ascii) (l : list ascii) :
  existsb (Ascii.eqb a) l = false -> ~ In a l.
Proof.
  intros H Hin. assert (existsb (Ascii.eqb a) l = true); [|congruence].
  apply existsb_exists. exists a. split; [exact Hin|apply Ascii.eqb_refl].
Qed.

End More.

(** The [predictions] schema of [init_db]: 34 pairwise distinct column
    names, and no sanitized feature column contains a space. *)
Theorem schema_columns_distinct :
  length table_columns = 34%nat /\ NoDup table_columns /\
  Forall (fun c => ~ In " "%char (list_ascii_of_string c)) (map sanitize feature_names).
Proof.
  split; [reflexivity|split].
  - apply nodupb_NoDup. vm_compute. reflexivity.
  - assert (Hb : forallb (fun c => negb (existsb (Ascii.eqb " ") (list_ascii_of_string c)))
                  (map sanitize feature_names) = true) by (vm_compute; reflexivity).
    rewrite forallb_forall in Hb. apply Forall_forall. intros c Hc.
    apply nonblank_absent, negb_true_iff. exact (Hb c Hc).
Qed.

(** Lines 115-121: when [scaler.transform] raises, [model.predict] raises,
    or [predict] returns an empty array (IndexError on [[0]]), the handler
    flashes "Error making prediction. Please try again." and writes no row. *)
Theorem prediction_fault_rejected {num : Type} (py_float : string -> option num)
    (is_nan : num -> bool)
    (sc : Scaler) (m : Model) (e : env) (f : form) (t : table)
    (u raw : string) (vals : list num) :
  form_get f "username" = Return u -> form_get f "features" = Return raw ->
  parse_features py_float raw = Return vals -> length vals = 30%nat ->
  (transform sc [vals] = None \/
   exists X, transform sc [vals] = Some X /\ (predict m X = None \/ predict m X = Some [])) ->
  index_post py_float is_nan sc m e f t
  = (t, flash_redirect "Error making prediction. Please try again." "error" "index").
Proof.
  intros Hu Hr Hp Hl Hfault.
  rewrite (index_post_parsed py_float is_nan sc m e f t u raw vals Hu Hr Hp Hl).
  assert (Hc : classify sc m vals = None).
  { unfold classify. destruct Hfault as [-> | (X & -> & [-> | ->])]; reflexivity. }
  rewrite Hc. reflexivity.
Qed.

Lemma prediction_fault_rejected_witness :
  index_post PyFloat.py_float PyFloat.is_nan raising_scaler dummy_model env_ok (sample_form "ann") empty_table
  = (empty_table, flash_redirect "Error making prediction. Please try again." "error" "index").
Proof.
  apply (prediction_fault_rejected PyFloat.py_float PyFloat.is_nan raising_scaler dummy_model env_ok
           (sample_form "ann") empty_table "ann" sample_features sample_vals).
  - reflexivity.
  - reflexivity.
  - vm_compute. reflexivity.
  - reflexivity.
  - left. reflexivity.
Defined.

(** Lines 106, 129 and 137: a successful submission stores the trimmed
    [username] and names it, trimmed, in the success message. *)
Theorem stored_username_trimmed {num : Type} (py_float : string -> option num)
    (is_nan : num -> bool)
    (sc : Scaler) (m : Model) (e : env) (f : form) (t t' : table) (resp : response) :
  index_post py_float is_nan sc m e f t = (t', resp) -> is_success resp = true ->
  exists u r pred,
    form_get f "username" = Return u /\
    tbl_rows t' = (tbl_rows t ++ [r])%list /\
    assoc "username" r = Some (SText (strip u)) /\
    assoc "prediction" r = Some (SInt pred) /\
    resp = flash_redirect ("Prediction for " ++ strip u ++ ": " ++ label_text pred)
             "success" "records".
Proof.
  intros H Hs.
  destruct (index_post_success py_float is_nan sc m e f t t' resp H Hs)
    as (u & raw & vals & pred & Hu & _ & _ & Hl & _ & -> & ->).
  exists u, (pred_row (strip u) pred vals (tbl_next_id t) (env_now e)), pred.
  destruct (pred_row_assoc_meta (strip u) pred vals (tbl_next_id t) (env_now e) Hl)
    as (_ & Hun & _).
  assert (Hpr : assoc "prediction" (pred_row (strip u) pred vals (tbl_next_id t) (env_now e))
                = Some (SInt pred)).
  { rewrite <- (firstn_skipn 4 (pred_row _ _ _ _ _)), pred_row_meta by exact Hl.
    reflexivity. }
  split; [exact Hu|split; [reflexivity|split; [exact Hun|split; [exact Hpr|reflexivity]]]].
Qed.

Lemma stored_username_trimmed_witness :
  exists u r pred,
    form_get (sample_form (nbsp ++ " bob ")) "username" = Return u /\
    tbl_rows (fst (index_post PyFloat.py_float PyFloat.is_nan dummy_scaler dummy_model env_ok
                     (sample_form (nbsp ++ " bob ")) empty_table))
    = (tbl_rows empty_table ++ [r])%list /\
    assoc "username" r = Some (SText (strip u)) /\
    assoc "prediction" r = Some (SInt pred) /\
    snd (index_post PyFloat.py_float PyFloat.is_nan dummy_scaler dummy_model env_ok
           (sample_form (nbsp ++ " bob ")) empty_table)
    = flash_redirect ("Prediction for " ++ strip u ++ ": " ++ label_text pred)
        "success" "records".
Proof.
  apply (stored_username_trimmed PyFloat.py_float PyFloat.is_nan dummy_scaler dummy_model env_ok
           (sample_form (nbsp ++ " bob ")) empty_table _
           (snd (index_post PyFloat.py_float PyFloat.is_nan dummy_scaler dummy_model env_ok
                   (sample_form (nbsp ++ " bob ")) empty_table))).
  - reflexivity.
  - vm_compute. reflexivity.
Defined.

(** The POST handler only ever appends to [predictions]: after any
    sequence of requests the old rows are an unchanged prefix, followed by
    one new row per successful submission. *)
Theorem run_posts_append_only {num : Type} (py_float : string -> option num)
    (is_nan : num -> bool)
    (sc : Scaler) (m : Model) (reqs : list (env * form)) (t : table) :
  exists added,
    tbl_rows (fst (run_posts py_float is_nan sc m t reqs)) = (tbl_rows t ++ added)%list /\
    length added = count_success (snd (run_posts py_float is_nan sc m t reqs)).
Proof.
  revert t; induction reqs as [|[e f] reqs IH]; intros t.
  - exists []. split; [symmetry; apply app_nil_r|reflexivity].
  - simpl. destruct (index_post_step py_float is_nan sc m e f t) as [[Hs Ht]|[Hs Hok]];
    destruct (index_post py_float is_nan sc m e f t) as [t1 r] eqn:Hp; cbn [fst snd] in *;
    destruct (IH t1) as (added & Hrows & Hlen);
    destruct (run_posts py_float is_nan sc m t1 reqs) as [t2 rs]; cbn [fst snd] in *;
    unfold count_success in *; simpl; rewrite Hs.
    + subst t1. exists added. split; assumption.
    + destruct Hok as (u & vals & pred & _ & ->). cbn [tbl_rows] in Hrows.
      exists (pred_row u pred vals (tbl_next_id t) (env_now e) :: added).
      rewrite Hrows, <- app_assoc. split; [reflexivity|]. simpl. rewrite Hlen. reflexivity.
Qed.

Lemma sequential_ids_run {num : Type} (py_float : string -> option num)
    (is_nan : num -> bool)
    (sc : Scaler) (m : Model) (reqs : list (env * form)) (t : table) :
  sequential_ids t -> sequential_ids (fst (run_posts py_float is_nan sc m t reqs)).
Proof.
  revert t; induction reqs as [|[e f] reqs IH]; intros t Hinv; [exact Hinv|].
  simpl. destruct (index_post_step py_float is_nan sc m e f t) as [[_ Ht]|[_ Hok]];
    destruct (index_post py_float is_nan sc m e f t) as [t1 r] eqn:Hp; cbn [fst snd] in *;
    destruct (run_posts py_float is_nan sc m t1 reqs) as [t2 rs] eqn:Hr; cbn [fst];
    specialize (IH t1); rewrite Hr in IH; apply IH.
  - subst t1. exact Hinv.
  - destruct Hok as (u & vals & pred & Hl & ->).
    destruct Hinv as [Hids Hnext].
    destruct (pred_row_assoc_meta u pred vals (tbl_next_id t) (env_now e) Hl) as (Hid & _ & _).
    unfold sequential_ids; cbn [tbl_rows tbl_next_id].
    rewrite length_app, map_app, Hids. cbn [length].
    rewrite Nat.add_1_r, seq_S, map_app. cbn [map app]. unfold row_id at 1. rewrite Hid, Hnext.
    replace (Z.of_nat (1 + length (tbl_rows t))) with (Z.of_nat (length (tbl_rows t)) + 1)%Z
      by lia.
    split; [reflexivity|lia].
Qed.

(** AUTOINCREMENT on a fresh table: after any sequence of requests the
    rows carry the ids 1, 2, ..., n in insertion order, and the next id is
    n + 1. *)
Theorem run_posts_sequential_ids {num : Type} (py_float : string -> option num)
    (is_nan : num -> bool)
    (sc : Scaler) (m : Model) (reqs : list (env * form)) :
  sequential_ids (fst (run_posts py_float is_nan sc m empty_table reqs)).
Proof.
  apply sequential_ids_run. split; reflexivity.
Qed.

(** The width check of the INSERT itself (lines 125-129): the column list
    always has 32 entries and the placeholders [2 + len(vals)], so a vector
    of any other length than 30 is never written. *)
Theorem insert_rejects_wrong_width {num : Type} (is_nan : num -> bool) (e : env) (u : string) (p : Z)
    (vals : list num) (t : table) :
  length vals <> 30%nat -> insert_prediction is_nan e u p vals t = None.
Proof.
  intros Hl. unfold insert_prediction, sql_insert.
  destruct (env_db_fails e); [reflexivity|]. cbv zeta.
  replace (negb (Nat.eqb (length ("username" :: "prediction" :: map sanitize feature_names))
                         (2 + length vals))) with true; [reflexivity|].
  symmetry. apply negb_true_iff, Nat.eqb_neq. simpl. lia.
Qed.

Lemma insert_rejects_wrong_width_witness :
  insert_prediction PyFloat.is_nan env_ok "ann" 0 (firstn 29 sample_vals) empty_table = None.
Proof. apply insert_rejects_wrong_width. discriminate. Defined.

Lemma parse_list_spec {num : Type} (py_float : string -> option num)
    (frags : list string) (vals : list num) :
  (parse_list py_float frags = Return vals <->
   Forall2 (fun frag x => py_float (strip frag) = Some x)
     (filter (fun w => negb (String.eqb (strip w) "")) frags) vals) /\
  (forall ex, parse_list py_float frags = Raise ex -> ex = ValueError).
Proof.
  revert vals; induction frags as [|w frags IH]; intros vals.
  - simpl. split; [|intros ex H; discriminate H]. split.
    + intros H; injection H as <-. constructor.
    + intros H; inversion H; reflexivity.
  - simpl. destruct (String.eqb (strip w) "") eqn:E; simpl; [apply IH|].
    destruct (py_float (strip w)) as [x|] eqn:Ex.
    + cbn [obind]. split.
      * split.
        -- destruct (parse_list py_float frags) as [xs|ex] eqn:Hp; [|intros H; discriminate H].
           intros H; injection H as <-. constructor; [exact Ex|].
           apply (proj1 (proj1 (IH xs))). reflexivity.
        -- intros H. inversion H as [|? y ? ys Hy Hys]; subst.
           rewrite Ex in Hy. injection Hy as <-.
           apply (proj2 (proj1 (IH ys))) in Hys. rewrite Hys. reflexivity.
      * intros ex. destruct (parse_list py_float frags) as [xs|ex'] eqn:Hp;
          [intros H; discriminate H|].
        intros H; injection H as <-. apply (proj2 (IH vals)). reflexivity.
    + split; [split|].
      * intros H; discriminate H.
      * intros H. inversion H as [|? y ? ys Hy]; subst. congruence.
      * intros ex H; injection H as <-. reflexivity.
Qed.

(** Line 108: the [features] field parses exactly when every fragment
    that is non-blank after [strip()] is accepted by [float()]; the values
    are then those numbers in order, blank fragments contributing nothing.
    The only exception the comprehension raises is [ValueError]. *)
Theorem parse_features_spec {num : Type} (py_float : string -> option num)
    (raw : string) (vals : list num) :
  (parse_features py_float raw = Return vals <->
   Forall2 (fun frag x => py_float (strip frag) = Some x)
     (filter (fun w => negb (String.eqb (strip w) "")) (split_on "," raw)) vals) /\
  (forall ex, parse_features py_float raw = Raise ex -> ex = ValueError).
Proof. apply parse_list_spec. Qed.

Lemma rev_rows_sorted_run {num : Type} (py_float : string -> option num)
    (is_nan : num -> bool)
    (sc : Scaler) (m : Model) (reqs : list (env * form)) (t : table) :
  Sorted (fun a b => (env_now (fst a) <= env_now (fst b))%Z) reqs ->
  Sorted ts_desc (rev (tbl_rows t)) ->
  Forall (fun r => Forall (fun q => (row_timestamp r <= env_now (fst q))%Z) reqs) (tbl_rows t) ->
  Sorted ts_desc (rev (tbl_rows (fst (run_posts py_float is_nan sc m t reqs)))).
Proof.
  revert t; induction reqs as [|[e f] reqs IH]; intros t Hreqs Hs Hall; [exact Hs|].
  assert (Hss : StronglySorted (fun a b => (env_now (fst a) <= env_now (fst b))%Z)
                  ((e, f) :: reqs)).
  { apply Sorted_StronglySorted; [intros x y z; lia|exact Hreqs]. }
  inversion Hss as [|? ? Hss' Hfirst]; subst.
  assert (Hreqs' : Sorted (fun a b => (env_now (fst a) <= env_now (fst b))%Z) reqs)
    by (apply StronglySorted_Sorted; exact Hss').
  assert (Hall' : Forall (fun r => Forall (fun q => (row_timestamp r <= env_now (fst q))%Z) reqs)
                    (tbl_rows t)).
  { eapply Forall_impl; [|exact Hall]. intros r Hr. inversion Hr; assumption. }
  simpl. destruct (index_post_step py_float is_nan sc m e f t) as [[_ Ht]|[_ Hok]];
    destruct (index_post py_float is_nan sc m e f t) as [t1 r] eqn:Hp; cbn [fst snd] in *;
    destruct (run_posts py_float is_nan sc m t1 reqs) as [t2 rs] eqn:Hr; cbn [fst];
    specialize (IH t1 Hreqs'); rewrite Hr in IH; apply IH.
  - subst t1. exact Hs.
  - subst t1. exact Hall'.
  - destruct Hok as (u & vals & pred & Hl & ->). cbn [tbl_rows].
    destruct (pred_row_assoc_meta u pred vals (tbl_next_id t) (env_now e) Hl) as (_ & _ & Hts).
    rewrite rev_app_distr. cbn [rev app]. constructor; [exact Hs|].
    destruct (rev (tbl_rows t)) as [|y ys] eqn:Hrev; constructor.
    unfold ts_desc. rewrite Hts.
    assert (Hy : In y (tbl_rows t)) by (apply in_rev; rewrite Hrev; left; reflexivity).
    rewrite Forall_forall in Hall. specialize (Hall y Hy). inversion Hall; assumption.
  - destruct Hok as (u & vals & pred & Hl & ->). cbn [tbl_rows].
    destruct (pred_row_assoc_meta u pred vals (tbl_next_id t) (env_now e) Hl) as (_ & _ & Hts).
    apply Forall_app. split; [exact Hall'|]. constructor; [|constructor].
    rewrite Hts. eapply Forall_impl; [|exact Hfirst]. intros q Hq. exact Hq.
Qed.

(** With a database clock that never goes backwards between requests,
    listing the rows most recent first (reverse insertion order) is a
    valid answer of the history query [ORDER BY timestamp DESC]. *)
Theorem monotone_clock_most_recent_first {num : Type} (py_float : string -> option num)
    (is_nan : num -> bool)
    (sc : Scaler) (m : Model) (reqs : list (env * form)) (e : env) :
  Sorted (fun a b => (env_now (fst a) <= env_now (fst b))%Z) reqs ->
  env_db_fails e = false ->
  records_resp e (fst (run_posts py_float is_nan sc m empty_table reqs))
    (mkResp [] (RenderRecords (rev (tbl_rows (fst (run_posts py_float is_nan sc m empty_table reqs)))))).
Proof.
  intros Hreqs Hdb. apply records_read_ok; [exact Hdb|]. split.
  - apply Permutation_rev.
  - apply rev_rows_sorted_run; [exact Hreqs|constructor|constructor].
Qed.

Lemma monotone_clock_most_recent_first_witness :
  records_resp env_ok (fst (run_posts PyFloat.py_float PyFloat.is_nan dummy_scaler dummy_model empty_table
                              clocked_posts))
    (mkResp [] (RenderRecords (rev (tbl_rows (fst (run_posts PyFloat.py_float PyFloat.is_nan dummy_scaler
                                    dummy_model empty_table clocked_posts)))))).
Proof.
  apply monotone_clock_most_recent_first; [|reflexivity].
  repeat constructor; simpl; lia.
Defined.

Lemma parse_features_spec_witness :
  Forall2 (fun frag x => PyFloat.py_float (strip frag) = Some x)
    (filter (fun w => negb (String.eqb (strip w) "")) (split_on "," ",1, ,2,"))
    [PyFloat.Fin false 1 0; PyFloat.Fin false 2 0].
Proof.
  apply (proj1 (proj1 (parse_features_spec PyFloat.py_float ",1, ,2,"
                         [PyFloat.Fin false 1 0; PyFloat.Fin false 2 0]))).
  reflexivity.
Defined.
